(** * OGP: the protocol stub and its two entry points

    A shallow embedding of [src/protocol/protocol.h], [src/protocol/protocol.cc],
    [src/client/client.cc] and [src/server/server.cc].

    C++ calls are computations in a state-and-exception monad: the state is
    the process's standard streams, the exception carries an error kind.
    A member function receives the object it is called on as an explicit
    argument; a non-const member function hands the object back next to its
    result, a const one cannot change it and returns the result alone. *)

From Stdlib Require Import ZArith String Ascii List Lia DecimalString.
From ExtLib Require Import Structures.Monad Structures.MonadState Structures.MonadExc.
From ExtLib Require Import Data.Monads.StateMonad Data.Monads.EitherMonad.
Import ListNotations.
Import MonadNotation.
Local Open Scope monad_scope.
Local Open Scope string_scope.
Local Open Scope Z_scope.

#[local] Existing Instance Monad_stateT.

(** ** Errors *)

(** Modelled from the spec: the error kinds of section 7.  The source
    declares no error type and contains no [throw]; the kinds are needed
    only to say which failure a call does or does not end in. *)
Inductive ErrorKind : Type :=
| PayloadTooLarge
| VersionMismatch
| CorruptFrame
| ConnectionClosed
| SessionClosed
| IOError
| ConnectFailed
| BindFailed.

(** ** The process state *)

(** What [<iostream>] gives a program: the bytes still unread on standard
    input, and the bytes written so far to standard output and standard
    error. *)
Record World : Type := mkWorld {
  cin  : string;
  cout : string;
  cerr : string
}.

Definition empty_world : World := mkWorld "" "" "".

(** A C++ computation: runs from a [World], and either returns a value and
    the new [World] ([inr]) or leaves by an exception ([inl]). *)
Definition Cpp : Type -> Type := stateT World (sum ErrorKind).

Definition run {A : Type} (c : Cpp A) (w : World) : ErrorKind + A * World :=
  runStateT c w.

(** ** iostream *)

(** [std::cout << s] for a character string: the characters are appended
    to standard output. *)
Definition cout_put (s : string) : Cpp unit :=
  w <- get ;;
  put (mkWorld (cin w) (cout w ++ s) (cerr w)).

(** The decimal digits [operator<<] prints for an unsigned integer. *)
Definition decimal (n : Z) : string :=
  NilZero.string_of_uint (N.to_uint (Z.to_N n)).

(** [std::cout << n] for an [unsigned short]. *)
Definition cout_put_unsigned (n : Z) : Cpp unit :=
  cout_put (decimal n).

Definition newline : string := String "010" "".

(** [std::cout << std::endl]: a newline character, then a flush; the flush
    leaves the written bytes as they are. *)
Definition endl : Cpp unit :=
  cout_put newline.

(** ** protocol.h and protocol.cc *)

Module ogp.

(** [constexpr uint16_t kProtocolVersion = 1;] *)
Definition kProtocolVersion : Z := 1.

(** [class Protocol] declares no data member. *)
Record Protocol : Type := mkProtocol { }.

(** [Protocol::Protocol() {}] *)
Definition Protocol_ctor : Cpp Protocol :=
  ret mkProtocol.

(** [Protocol::~Protocol() {}] *)
Definition Protocol_dtor (this : Protocol) : Cpp unit :=
  ret tt.

(** [uint16_t Protocol::GetVersion() const { return kProtocolVersion; }] *)
Definition GetVersion (this : Protocol) : Cpp Z :=
  ret kProtocolVersion.

(** [std::string Protocol::Serialize(const std::string& message)
     { return message; }] *)
Definition Serialize (this : Protocol) (message : string)
  : Cpp (string * Protocol) :=
  ret (message, this).

(** [std::string Protocol::Deserialize(const std::string& data)
     { return data; }] *)
Definition Deserialize (this : Protocol) (data : string)
  : Cpp (string * Protocol) :=
  ret (data, this).

End ogp.

(** ** client.cc *)

Module client.

(** [int main(int argc, char* argv[])]: the local [protocol] is destroyed
    when [main] leaves, after the return value has been fixed. *)
Definition main (argc : Z) (argv : list string) : Cpp Z :=
  cout_put "OGP Client starting..." ;; endl ;;
  protocol <- ogp.Protocol_ctor ;;
  cout_put "Protocol version: " ;;
  version <- ogp.GetVersion protocol ;;
  cout_put_unsigned version ;; endl ;;
  cout_put "OGP Client ready" ;; endl ;;
  let status := 0 in
  ogp.Protocol_dtor protocol ;;
  ret status.

End client.

(** ** server.cc *)

Module server.

(** [int main(int argc, char* argv[])] *)
Definition main (argc : Z) (argv : list string) : Cpp Z :=
  cout_put "OGP Server starting..." ;; endl ;;
  protocol <- ogp.Protocol_ctor ;;
  cout_put "Protocol version: " ;;
  version <- ogp.GetVersion protocol ;;
  cout_put_unsigned version ;; endl ;;
  cout_put "OGP Server ready" ;; endl ;;
  let status := 0 in
  ogp.Protocol_dtor protocol ;;
  ret status.

End server.

(** ** Sequences of calls on one object *)

(** One call of a member function of [Protocol], and what it answers. *)
Inductive call : Type :=
| CallGetVersion
| CallSerialize (message : string)
| CallDeserialize (data : string).

Inductive answer : Type :=
| Version (v : Z)
| Text (s : string).

Definition invoke (this : ogp.Protocol) (c : call)
  : Cpp (answer * ogp.Protocol) :=
  match c with
  | CallGetVersion =>
      v <- ogp.GetVersion this ;; ret (Version v, this)
  | CallSerialize message =>
      '(s, this') <- ogp.Serialize this message ;; ret (Text s, this')
  | CallDeserialize data =>
      '(s, this') <- ogp.Deserialize this data ;; ret (Text s, this')
  end.

(** The calls of [cs] made one after the other on the same object. *)
Fixpoint invoke_all (this : ogp.Protocol) (cs : list call)
  : Cpp (list answer * ogp.Protocol) :=
  match cs with
  | [] => ret ([], this)
  | c :: cs' =>
      '(a, this1) <- invoke this c ;;
      '(rest, this2) <- invoke_all this1 cs' ;;
      ret (a :: rest, this2)
  end.

(** What a call answers, read off its argument alone. *)
Definition answer_of (c : call) : answer :=
  match c with
  | CallGetVersion => Version ogp.kProtocolVersion
  | CallSerialize message => Text message
  | CallDeserialize data => Text data
  end.

(** ** The frame of the spec *)

Definition byte_value (c : ascii) : Z := Z.of_N (N_of_ascii c).

(** Modelled from the spec: the version field of a frame,
    [[version: 2 bytes][length: 4 bytes][payload]] with big-endian
    integers.  The source reads no field of its input. *)
Definition frame_version (data : string) : option Z :=
  match data with
  | String hi (String lo _) => Some (256 * byte_value hi + byte_value lo)
  | _ => None
  end.

Definition uint32_max : Z := 4294967295.

(** Modelled from the spec: a valid Message within the size limit; its
    payload length is at most [maxLength] and fits the 4-byte length field.
    The source has neither a limit nor a length field. *)
Definition valid_message (maxLength : Z) (payload : string) : Prop :=
  Z.of_nat (String.length payload) <= maxLength /\
  Z.of_nat (String.length payload) <= uint32_max.

(** A frame of version 2 with an empty payload: bytes 00 02 00 00 00 00. *)
Definition frame_v2 : string :=
  String "000" (String "002" (String "000" (String "000"
    (String "000" (String "000" "")))))%char.

(** A line of output: its text and the newline of [std::endl]. *)
Definition line (text : string) : string := text ++ newline.

(** The startup line, the protocol version and the ready line, in the order
    an entry point prints them. *)
Definition banner (role : string) : string :=
  line ("OGP " ++ role ++ " starting...") ++
  line ("Protocol version: " ++ decimal ogp.kProtocolVersion) ++
  line ("OGP " ++ role ++ " ready").

(** ** The codec of the spec, stated on the stub *)

(** The spec's size limit on [Encode], read on [Serialize]: the call fails
    with [PayloadTooLarge] exactly when the payload is longer than
    [maxLength]. *)
Definition Encode_enforces_limit (maxLength : Z) : Prop :=
  forall (this : ogp.Protocol) (w : World) (message : string),
    run (ogp.Serialize this message) w = inl PayloadTooLarge <->
    maxLength < Z.of_nat (String.length message).

(** The spec's version check on [Decode], read on [Deserialize]: a buffer
    whose version field is not [kProtocolVersion] fails with
    [VersionMismatch]. *)
Definition Decode_rejects_version : Prop :=
  forall (this : ogp.Protocol) (w : World) (data : string) (v : Z),
    frame_version data = Some v ->
    v <> ogp.kProtocolVersion ->
    run (ogp.Deserialize this data) w = inl VersionMismatch.

(** The spec's frame size on [Encode], read on [Serialize]: a valid message
    of payload length [L] is encoded in [6 + L] bytes, and nothing else
    changes. *)
Definition Encode_adds_header (maxLength : Z) : Prop :=
  forall (this : ogp.Protocol) (w : World) (message : string),
    valid_message maxLength message ->
    exists bytes : string,
      run (ogp.Serialize this message) w = inr ((bytes, this), w) /\
      Z.of_nat (String.length bytes) = 6 + Z.of_nat (String.length message).

(** ** Uses of the member functions *)

(** The life of one object, as the local [protocol] of an entry point
    lives it: constructed, called (here with the calls of [cs]), destroyed
    when its scope ends. *)
Definition with_Protocol (cs : list call) : Cpp (list answer) :=
  protocol <- ogp.Protocol_ctor ;;
  '(answers, protocol') <- invoke_all protocol cs ;;
  ogp.Protocol_dtor protocol' ;;
  ret answers.

(** A step of a relay: the string in hand goes through [Serialize] or
    through [Deserialize]. *)
Inductive codec_step : Type :=
| StepSerialize
| StepDeserialize.

Definition codec_call (this : ogp.Protocol) (step : codec_step) (s : string)
  : Cpp (string * ogp.Protocol) :=
  match step with
  | StepSerialize => ogp.Serialize this s
  | StepDeserialize => ogp.Deserialize this s
  end.

(** The steps of [steps] applied one after the other, each to the result
    of the one before. *)
Fixpoint pipeline (this : ogp.Protocol) (steps : list codec_step) (s : string)
  : Cpp (string * ogp.Protocol) :=
  match steps with
  | [] => ret (s, this)
  | step :: steps' =>
      '(s1, this1) <- codec_call this step s ;;
      pipeline this1 steps' s1
  end.

(** Two messages serialized one after the other, their encodings put end
    to end as a byte stream carries them. *)
Definition Serialize_both (this : ogp.Protocol) (a b : string)
  : Cpp (string * ogp.Protocol) :=
  '(x, this1) <- ogp.Serialize this a ;;
  '(y, this2) <- ogp.Serialize this1 b ;;
  ret (x ++ y, this2).

(** * Properties *)

(** ** Running computations *)

Lemma run_ret {A : Type} (a : A) (w : World) :
  run (ret a) w = inr (a, w).
Proof. reflexivity. Qed.

Lemma run_bind_inr {A B : Type} (c : Cpp A) (k : A -> Cpp B) (w w1 : World) (a : A) :
  run c w = inr (a, w1) ->
  run (bind c k) w = run (k a) w1.
Proof.
  unfold run. intros H. simpl. rewrite H. reflexivity.
Qed.

Lemma run_cout_put (s : string) (w : World) :
  run (cout_put s) w = inr (tt, mkWorld (cin w) (cout w ++ s) (cerr w)).
Proof. reflexivity. Qed.

Lemma append_assoc (a b c : string) : ((a ++ b) ++ c = a ++ (b ++ c))%string.
Proof.
  induction a as [| x a IH]; simpl.
  - reflexivity.
  - rewrite IH. reflexivity.
Qed.

(** No member function of [Protocol] leaves by an exception, or touches the
    object or the streams. *)
Lemma run_GetVersion (this : ogp.Protocol) (w : World) :
  run (ogp.GetVersion this) w = inr (ogp.kProtocolVersion, w).
Proof. reflexivity. Qed.

Lemma run_Serialize (this : ogp.Protocol) (message : string) (w : World) :
  run (ogp.Serialize this message) w = inr ((message, this), w).
Proof. reflexivity. Qed.

Lemma run_Deserialize (this : ogp.Protocol) (data : string) (w : World) :
  run (ogp.Deserialize this data) w = inr ((data, this), w).
Proof. reflexivity. Qed.

Lemma run_invoke (this : ogp.Protocol) (c : call) (w : World) :
  run (invoke this c) w = inr ((answer_of c, this), w).
Proof. destruct c; reflexivity. Qed.

Lemma run_invoke_all (this : ogp.Protocol) (cs : list call) (w : World) :
  run (invoke_all this cs) w = inr ((map answer_of cs, this), w).
Proof.
  induction cs as [| c cs IH].
  - reflexivity.
  - cbn [invoke_all map].
    rewrite (run_bind_inr _ _ _ _ _ (run_invoke this c w)).
    rewrite (run_bind_inr _ _ _ _ _ IH).
    reflexivity.
Qed.

(** ** The codec stub *)

(** C1: for every string [s], [Serialize(s)] returns [s] unchanged, and for
    every string [d], [Deserialize(d)] returns [d] unchanged: both member
    functions are the identity on strings. *)
Theorem Serialize_Deserialize_identity :
  forall (this : ogp.Protocol) (w : World) (s d : string),
    run (ogp.Serialize this s) w = inr ((s, this), w) /\
    run (ogp.Deserialize this d) w = inr ((d, this), w).
Proof.
  intros this w s d. split.
  - apply run_Serialize.
  - apply run_Deserialize.
Qed.

(** C2: round-trip law.  For every valid Message [m] within the size limit,
    decoding the encoding of [m], which the code realises as
    [Deserialize(Serialize(m))], yields a Message equal to [m]. *)
Theorem Deserialize_Serialize_roundtrip :
  forall (maxLength : Z) (this : ogp.Protocol) (w : World) (m : string),
    valid_message maxLength m ->
    run ('(bytes, this1) <- ogp.Serialize this m ;;
         ogp.Deserialize this1 bytes) w
    = inr ((m, this), w).
Proof.
  intros maxLength this w m _.
  rewrite (run_bind_inr _ _ _ _ _ (run_Serialize this m w)).
  apply run_Deserialize.
Qed.

Lemma Deserialize_Serialize_roundtrip_ping :
  valid_message 16777216 "ping" /\
  run ('(bytes, this1) <- ogp.Serialize ogp.mkProtocol "ping" ;;
       ogp.Deserialize this1 bytes) empty_world
  = inr (("ping", ogp.mkProtocol), empty_world).
Proof.
  assert (V : valid_message 16777216 "ping").
  { unfold valid_message, uint32_max. simpl. lia. }
  split.
  - exact V.
  - exact (Deserialize_Serialize_roundtrip 16777216 ogp.mkProtocol empty_world "ping" V).
Defined.

(** C3: for every Protocol object [p], [p.GetVersion()] returns
    [kProtocolVersion], and [kProtocolVersion] equals 1. *)
Theorem GetVersion_is_kProtocolVersion :
  forall (p : ogp.Protocol) (w : World),
    run (ogp.GetVersion p) w = inr (ogp.kProtocolVersion, w) /\
    ogp.kProtocolVersion = 1.
Proof.
  intros p w. split.
  - apply run_GetVersion.
  - reflexivity.
Qed.

(** C9: the reverse round trip.  For every string [d],
    [Serialize(Deserialize(d))] is [d]. *)
Theorem Serialize_Deserialize_roundtrip :
  forall (this : ogp.Protocol) (w : World) (d : string),
    run ('(m, this1) <- ogp.Deserialize this d ;;
         ogp.Serialize this1 m) w
    = inr ((d, this), w).
Proof.
  intros this w d.
  rewrite (run_bind_inr _ _ _ _ _ (run_Deserialize this d w)).
  apply run_Serialize.
Qed.

(** C10: Protocol is stateless and its operations are total.  After any
    sequence of earlier calls, from any state, a call of [Serialize],
    [Deserialize] or [GetVersion] returns without an exception, its result
    is the one its argument alone determines, and the object and the
    streams are as they were before the first call. *)
Theorem Protocol_stateless_total :
  forall (prior : list call) (c : call) (this : ogp.Protocol) (w : World),
    run ('(_, this1) <- invoke_all this prior ;; invoke this1 c) w
    = inr ((answer_of c, this), w).
Proof.
  intros prior c this w.
  rewrite (run_bind_inr _ _ _ _ _ (run_invoke_all this prior w)).
  apply run_invoke.
Qed.

(** ** Where the stub departs from the codec of the spec *)

(** C4, as stated: encoding a payload of length [maxLength + 1] fails with
    [PayloadTooLarge].  With a maximum of 4 bytes, the 5-byte payload
    ["ping!"] is returned all the same. *)
Lemma Serialize_over_limit_returns :
  Z.of_nat (String.length "ping!") = 4 + 1 /\
  run (ogp.Serialize ogp.mkProtocol "ping!") empty_world
  = inr (("ping!", ogp.mkProtocol), empty_world) /\
  ~ Encode_enforces_limit 4.
Proof.
  split; [reflexivity |]. split; [reflexivity |].
  intros claim.
  destruct (claim ogp.mkProtocol empty_world "ping!") as [_ fails].
  assert (over : 4 < Z.of_nat (String.length "ping!")) by (simpl; lia).
  specialize (fails over).
  rewrite run_Serialize in fails. discriminate fails.
Qed.

(** C4, amended: encoding a payload of length [maxLength + 1] succeeds, as
    encoding a payload of exactly [maxLength] does; [Serialize] returns the
    payload unchanged and does not fail with [PayloadTooLarge]. *)
Theorem Serialize_has_no_size_limit :
  forall (maxLength : Z) (this : ogp.Protocol) (w : World) (message : string),
    Z.of_nat (String.length message) = maxLength \/
    Z.of_nat (String.length message) = maxLength + 1 ->
    run (ogp.Serialize this message) w = inr ((message, this), w) /\
    run (ogp.Serialize this message) w <> inl PayloadTooLarge.
Proof.
  intros maxLength this w message _.
  rewrite run_Serialize. split.
  - reflexivity.
  - discriminate.
Qed.

Lemma Serialize_has_no_size_limit_ping :
  (Z.of_nat (String.length "ping") = 4 \/
   Z.of_nat (String.length "ping") = 4 + 1) /\
  (Z.of_nat (String.length "ping!") = 4 \/
   Z.of_nat (String.length "ping!") = 4 + 1) /\
  run (ogp.Serialize ogp.mkProtocol "ping") empty_world
  = inr (("ping", ogp.mkProtocol), empty_world) /\
  run (ogp.Serialize ogp.mkProtocol "ping!") empty_world
  <> inl PayloadTooLarge.
Proof.
  assert (at_limit : Z.of_nat (String.length "ping") = 4 \/
                     Z.of_nat (String.length "ping") = 4 + 1)
    by (left; reflexivity).
  assert (over_limit : Z.of_nat (String.length "ping!") = 4 \/
                       Z.of_nat (String.length "ping!") = 4 + 1)
    by (right; reflexivity).
  split; [exact at_limit |]. split; [exact over_limit |]. split.
  - exact (proj1 (Serialize_has_no_size_limit 4 ogp.mkProtocol empty_world
                    "ping" at_limit)).
  - exact (proj2 (Serialize_has_no_size_limit 4 ogp.mkProtocol empty_world
                    "ping!" over_limit)).
Defined.

(** C5, as stated: decoding a buffer whose version field differs from
    [kProtocolVersion] fails with [VersionMismatch].  The frame
    00 02 00 00 00 00 carries version 2 and is returned whole. *)
Lemma Deserialize_version_2_returns :
  frame_version frame_v2 = Some 2 /\
  2 <> ogp.kProtocolVersion /\
  run (ogp.Deserialize ogp.mkProtocol frame_v2) empty_world
  = inr ((frame_v2, ogp.mkProtocol), empty_world) /\
  ~ Decode_rejects_version.
Proof.
  assert (other : 2 <> ogp.kProtocolVersion) by discriminate.
  split; [reflexivity |]. split; [exact other |]. split; [reflexivity |].
  intros claim.
  specialize (claim ogp.mkProtocol empty_world frame_v2 2 eq_refl other).
  rewrite run_Deserialize in claim. discriminate claim.
Qed.

(** C5, amended: decoding a buffer whose version field differs from
    [kProtocolVersion] does not fail: [Deserialize] returns the whole
    buffer unchanged and leaves the object and the streams as they were. *)
Theorem Deserialize_ignores_version :
  forall (this : ogp.Protocol) (w : World) (data : string) (v : Z),
    frame_version data = Some v ->
    v <> ogp.kProtocolVersion ->
    run (ogp.Deserialize this data) w = inr ((data, this), w).
Proof.
  intros this w data v _ _. apply run_Deserialize.
Qed.

Lemma Deserialize_ignores_version_frame_v2 :
  frame_version frame_v2 = Some 2 /\
  2 <> ogp.kProtocolVersion /\
  run (ogp.Deserialize ogp.mkProtocol frame_v2) empty_world
  = inr ((frame_v2, ogp.mkProtocol), empty_world).
Proof.
  assert (field : frame_version frame_v2 = Some 2) by reflexivity.
  assert (other : 2 <> ogp.kProtocolVersion) by discriminate.
  split; [exact field |]. split; [exact other |].
  exact (Deserialize_ignores_version ogp.mkProtocol empty_world frame_v2 2
           field other).
Defined.

(** C6, as stated: a valid message of payload length [L] is encoded in
    exactly [6 + L] bytes.  The 4-byte payload ["ping"] is encoded in 4
    bytes, not 10. *)
Lemma Serialize_ping_is_4_bytes :
  valid_message 16777216 "ping" /\
  run (ogp.Serialize ogp.mkProtocol "ping") empty_world
  = inr (("ping", ogp.mkProtocol), empty_world) /\
  Z.of_nat (String.length "ping") = 4 /\
  ~ Encode_adds_header 16777216.
Proof.
  assert (V : valid_message 16777216 "ping").
  { unfold valid_message, uint32_max. simpl. lia. }
  split; [exact V |]. split; [reflexivity |]. split; [reflexivity |].
  intros claim.
  destruct (claim ogp.mkProtocol empty_world "ping" V) as [bytes [returned size]].
  rewrite run_Serialize in returned.
  injection returned as same. subst bytes.
  simpl in size. lia.
Qed.

(** C6, amended: for every valid message of payload length [L], [Serialize]
    produces a byte sequence of exactly [L] bytes, which is the payload
    itself with no 6-byte header, and the encoding has no side effects. *)
Theorem Serialize_keeps_length :
  forall (maxLength L : Z) (this : ogp.Protocol) (w : World) (message : string),
    valid_message maxLength message ->
    Z.of_nat (String.length message) = L ->
    exists bytes : string,
      run (ogp.Serialize this message) w = inr ((bytes, this), w) /\
      bytes = message /\
      Z.of_nat (String.length bytes) = L.
Proof.
  intros maxLength L this w message _ size.
  exists message. split; [| split].
  - apply run_Serialize.
  - reflexivity.
  - exact size.
Qed.

Lemma Serialize_keeps_length_ping :
  valid_message 16777216 "ping" /\
  Z.of_nat (String.length "ping") = 4 /\
  exists bytes : string,
    run (ogp.Serialize ogp.mkProtocol "ping") empty_world
    = inr ((bytes, ogp.mkProtocol), empty_world) /\
    bytes = "ping" /\
    Z.of_nat (String.length bytes) = 4.
Proof.
  assert (V : valid_message 16777216 "ping").
  { unfold valid_message, uint32_max. simpl. lia. }
  assert (size : Z.of_nat (String.length "ping") = 4) by reflexivity.
  split; [exact V |]. split; [exact size |].
  exact (Serialize_keeps_length 16777216 4 ogp.mkProtocol empty_world "ping"
           V size).
Defined.

(** ** The entry points *)

Lemma run_client_main (argc : Z) (argv : list string) (w : World) :
  run (client.main argc argv) w
  = inr (0, mkWorld (cin w) (cout w ++ banner "Client") (cerr w)).
Proof.
  unfold client.main, endl, cout_put_unsigned.
  repeat (rewrite (run_bind_inr _ _ _ _ _ (run_cout_put _ _)); cbn [cin cout cerr]).
  cbn.
  repeat rewrite append_assoc. reflexivity.
Qed.

Lemma run_server_main (argc : Z) (argv : list string) (w : World) :
  run (server.main argc argv) w
  = inr (0, mkWorld (cin w) (cout w ++ banner "Server") (cerr w)).
Proof.
  unfold server.main, endl, cout_put_unsigned.
  repeat (rewrite (run_bind_inr _ _ _ _ _ (run_cout_put _ _)); cbn [cin cout cerr]).
  cbn.
  repeat rewrite append_assoc. reflexivity.
Qed.

Lemma banner_lines (role : string) :
  banner role
  = line ("OGP " ++ role ++ " starting...") ++
    line "Protocol version: 1" ++
    line ("OGP " ++ role ++ " ready").
Proof. reflexivity. Qed.

(** C7: the client and the server entry point each print a startup line,
    the protocol version and a ready line to standard output, in that
    order, create the Protocol object without exchanging any data (nothing
    is read from standard input, nothing is written to standard error or
    anywhere else), and return exit code 0. *)
Theorem mains_print_banner_and_return_0 :
  forall (argc : Z) (argv : list string) (w : World),
    run (client.main argc argv) w
    = inr (0, mkWorld (cin w)
                      (cout w ++ line "OGP Client starting..." ++
                                 line "Protocol version: 1" ++
                                 line "OGP Client ready")
                      (cerr w)) /\
    run (server.main argc argv) w
    = inr (0, mkWorld (cin w)
                      (cout w ++ line "OGP Server starting..." ++
                                 line "Protocol version: 1" ++
                                 line "OGP Server ready")
                      (cerr w)).
Proof.
  intros argc argv w. split.
  - rewrite run_client_main, banner_lines. reflexivity.
  - rewrite run_server_main, banner_lines. reflexivity.
Qed.

(** C8: the entry points ignore their command-line arguments.  Two
    invocations with different [argc] and [argv], started in the same
    state, write the same standard output and return the same exit code. *)
Theorem mains_ignore_arguments :
  forall (argc1 argc2 : Z) (argv1 argv2 : list string) (w : World),
    run (client.main argc1 argv1) w = run (client.main argc2 argv2) w /\
    run (server.main argc1 argv1) w = run (server.main argc2 argv2) w.
Proof.
  intros argc1 argc2 argv1 argv2 w. split.
  - rewrite !run_client_main. reflexivity.
  - rewrite !run_server_main. reflexivity.
Qed.

(** * Further properties of the code *)

(** ** Construction and destruction *)

Lemma run_Protocol_ctor (w : World) :
  run ogp.Protocol_ctor w = inr (ogp.mkProtocol, w).
Proof. reflexivity. Qed.

Lemma run_Protocol_dtor (this : ogp.Protocol) (w : World) :
  run (ogp.Protocol_dtor this) w = inr (tt, w).
Proof. reflexivity. Qed.

(** X1: a Protocol object can be constructed, used for any sequence of
    calls and destroyed: the whole life returns without an exception, every
    call is answered by what its argument determines, and the standard
    streams are as they were before the constructor ran. *)
Theorem Protocol_lifetime_leaves_no_trace :
  forall (cs : list call) (w : World),
    run (with_Protocol cs) w = inr (map answer_of cs, w).
Proof.
  intros cs w. unfold with_Protocol.
  rewrite (run_bind_inr _ _ _ _ _ (run_Protocol_ctor w)).
  rewrite (run_bind_inr _ _ _ _ _ (run_invoke_all ogp.mkProtocol cs w)).
  rewrite (run_bind_inr _ _ _ _ _ (run_Protocol_dtor ogp.mkProtocol w)).
  apply run_ret.
Qed.

(** ** Composition of the codec functions *)

Lemma run_codec_call (this : ogp.Protocol) (step : codec_step) (s : string)
      (w : World) :
  run (codec_call this step s) w = inr ((s, this), w).
Proof. destruct step; [apply run_Serialize | apply run_Deserialize]. Qed.

(** X2: any chain of [Serialize] and [Deserialize] calls, of any length and
    in any order, each fed the result of the one before, returns the string
    it started from and changes nothing. *)
Theorem pipeline_returns_input :
  forall (steps : list codec_step) (this : ogp.Protocol) (w : World)
         (s : string),
    run (pipeline this steps s) w = inr ((s, this), w).
Proof.
  induction steps as [| step steps IH]; intros this w s.
  - apply run_ret.
  - cbn [pipeline].
    rewrite (run_bind_inr _ _ _ _ _ (run_codec_call this step s w)).
    apply IH.
Qed.

(** X3: [Serialize] and [Deserialize] are bijections on strings: every byte
    string is the encoding of exactly one message, and every string is the
    decoding of exactly one buffer. *)
Theorem Serialize_Deserialize_bijective :
  forall (this : ogp.Protocol) (w : World) (target : string),
    (exists! message : string,
        run (ogp.Serialize this message) w = inr ((target, this), w)) /\
    (exists! data : string,
        run (ogp.Deserialize this data) w = inr ((target, this), w)).
Proof.
  intros this w target. split.
  - exists target. split.
    + apply run_Serialize.
    + intros message H. rewrite run_Serialize in H.
      injection H as same. symmetry. exact same.
  - exists target. split.
    + apply run_Deserialize.
    + intros data H. rewrite run_Deserialize in H.
      injection H as same. symmetry. exact same.
Qed.

Lemma run_Serialize_both (this : ogp.Protocol) (a b : string) (w : World) :
  run (Serialize_both this a b) w = inr ((a ++ b, this), w).
Proof.
  unfold Serialize_both.
  rewrite (run_bind_inr _ _ _ _ _ (run_Serialize this a w)).
  rewrite (run_bind_inr _ _ _ _ _ (run_Serialize this b w)).
  apply run_ret.
Qed.

(** X4: the encodings carry no message boundary.  Two pairs of messages
    with the same concatenation give the same bytes when each pair is
    serialized end to end, so the bytes do not tell where the first message
    stops. *)
Theorem Serialize_both_hides_boundary :
  forall (this : ogp.Protocol) (w : World) (a b a' b' : string),
    (a ++ b)%string = (a' ++ b')%string ->
    run (Serialize_both this a b) w = run (Serialize_both this a' b') w.
Proof.
  intros this w a b a' b' same.
  rewrite !run_Serialize_both, same. reflexivity.
Qed.

Lemma Serialize_both_hides_boundary_ping :
  ("pi" ++ "ng")%string = ("pin" ++ "g")%string /\
  run (Serialize_both ogp.mkProtocol "pi" "ng") empty_world
  = run (Serialize_both ogp.mkProtocol "pin" "g") empty_world.
Proof.
  assert (same : ("pi" ++ "ng")%string = ("pin" ++ "g")%string)
    by reflexivity.
  split; [exact same |].
  exact (Serialize_both_hides_boundary ogp.mkProtocol empty_world
           "pi" "ng" "pin" "g" same).
Defined.

(** ** The entry points and standard input *)

(** X5: the entry points read nothing from standard input.  Started with
    different pending input and otherwise the same streams, each of them
    returns the same exit code, leaves the same standard output and
    standard error, and leaves the pending input unread. *)
Theorem mains_ignore_stdin :
  forall (argc : Z) (argv : list string) (input1 input2 out err : string),
    (exists (status : Z) (out' : string),
        run (client.main argc argv) (mkWorld input1 out err)
        = inr (status, mkWorld input1 out' err) /\
        run (client.main argc argv) (mkWorld input2 out err)
        = inr (status, mkWorld input2 out' err)) /\
    (exists (status : Z) (out' : string),
        run (server.main argc argv) (mkWorld input1 out err)
        = inr (status, mkWorld input1 out' err) /\
        run (server.main argc argv) (mkWorld input2 out err)
        = inr (status, mkWorld input2 out' err)).
Proof.
  intros argc argv input1 input2 out err. split.
  - exists 0, (out ++ banner "Client")%string.
    rewrite !run_client_main. split; reflexivity.
  - exists 0, (out ++ banner "Server")%string.
    rewrite !run_server_main. split; reflexivity.
Qed.
